(** * Thermophysical functions and the IDEA liquid of OpenFOAM

    A shallow embedding of

    - [src/thermophysicalModels/specie/thermophysicalFunctions/none/noneThermophysicalFunction.C]
    - [src/thermophysicalModels/thermophysicalProperties/liquidProperties/IDEA/IDEA.H]

    [Foam::scalar] is a double: it is embedded as Rocq's binary64 [float].
    A [FatalError] that ends in [exit(FatalError)] is embedded as the
    [Fatal] outcome of a small error monad; an [Ostream] is the sequence
    of tokens written to it so far; objects reached through pointers live
    in a heap.

    The two files declare more than they define: the correlation
    families, the base class of liquids, the inline accessors of [IDEA]
    and the construction of a liquid from a dictionary are defined in
    files that are not among the sources. What is embedded of them is
    marked, definition by definition, as modelled from the spec or as a
    parameter. *)

From Stdlib Require Import Floats String List Lia.
From stdpp Require Import base list.
Import ListNotations.
Local Open Scope string_scope.
Set Warnings "-inexact-float".

(** ** Primitive types of the library *)

Definition scalar : Type := float.
Definition word : Type := string.
Definition fileName : Type := string.

(** [Foam::Ostream]: the tokens written so far, words and numbers. *)
Inductive token : Type :=
| tWord (w : word)
| tScalar (x : scalar).

Definition Ostream : Type := list token.

(** What is streamed into an error with [<<]: a string literal, the
    [nl] manipulator, or a [fileName]. How [Ostream] prints each of them
    is the business of its [operator<<], which is not among the sources;
    the message is kept as the sequence of operands. *)
Inductive streamed : Type :=
| sText (s : string)
| sNl
| sFileName (f : fileName).

(** The fatal errors. [UndefinedFunction] is the [FatalError] of
    [none::f] and carries what was streamed into it. The other three are
    modelled from the spec (section 7): they are raised in files that are
    not among the sources, and carry what was offending. *)
Inductive error : Type :=
| UndefinedFunction (message : list streamed)
| DomainError (T Tc : scalar)
| UnknownCorrelationType (typeName : word)
| MalformedCoefficients (typeName : word) (given : nat).

(** What [none::f] streams into [FatalError]:
    ["Required Function " << nl << "    " << dictName_ << nl
     << "    is not defined."] *)
Definition undefinedFunctionMessage (dictName : fileName) : list streamed :=
  [ sText "Required Function "; sNl;
    sText "    "; sFileName dictName; sNl;
    sText "    is not defined." ].

(** ** Outcomes: normal return or fatal exit *)

Inductive outcome (A : Type) : Type :=
| Returned (a : A)
| Fatal (e : error).
Arguments Returned {A} a.
Arguments Fatal {A} e.

Definition bind {A B : Type} (m : outcome A) (k : A -> outcome B) : outcome B :=
  match m with
  | Returned a => k a
  | Fatal e => Fatal e
  end.

Declare Scope foam_scope.
Delimit Scope foam_scope with foam.
Notation "'do' x <- m ;; k" := (bind m (fun x => k))
  (at level 10, x name, m at level 99, k at level 200) : foam_scope.
Notation "'run' m ;; k" := (bind m (fun _ => k))
  (at level 10, m at level 99, k at level 200) : foam_scope.
Local Open Scope foam_scope.

(** [FatalErrorInFunction << ... << exit(FatalError)]: control never
    reaches the statement that follows. *)
Definition exitFatal (e : error) : outcome unit := Fatal e.

Definition isFatal {A : Type} (m : outcome A) : bool :=
  match m with
  | Returned _ => false
  | Fatal _ => true
  end.

(** ** [Foam::dictionary], as far as the sources use it *)

(** Modelled from the spec: the configuration of one slot (section 6), a
    type name and an ordered list of coefficients. *)
Record entry : Type := mkEntry
  { entryType : word;
    entryCoeffs : list scalar }.

(** [dict.name()] is all that [none] reads of a dictionary. Modelled from
    the spec: its entries, one configuration per key. *)
Record dictionary : Type := mkDictionary
  { name : fileName;
    entries : list (word * entry) }.

(** ** [Foam::thermophysicalFunctions::none] *)

Module none.

(** Private data: [dictName_]. *)
Record t : Type := mk { dictName_ : fileName }.

(** [defineTypeNameAndDebug(none, 0)] *)
Definition typeName : word := "none".

(** [none::none(const dictionary& dict) : dictName_(dict.name()) {}] *)
Definition construct (dict : dictionary) : t :=
  {| dictName_ := name dict |}.

(** [scalar none::f(scalar p, scalar T) const] *)
Definition f (self : t) (p T : scalar) : outcome scalar :=
  run exitFatal (UndefinedFunction (undefinedFunctionMessage (dictName_ self))) ;;
  Returned 0%float.

(** [void none::write(Ostream& os) const {}] *)
Definition write (self : t) (os : Ostream) : Ostream := os.

End none.

(** ** The correlation families *)

(** The classes [IDEA.H] includes and declares its members with. *)
Inductive family : Type :=
| NSRDS0 | NSRDS1 | NSRDS2 | NSRDS3 | NSRDS4 | NSRDS5 | NSRDS6 | NSRDS7
| APIdiffCoef.

Definition allFamilies : list family :=
  [NSRDS0; NSRDS1; NSRDS2; NSRDS3; NSRDS4; NSRDS5; NSRDS6; NSRDS7; APIdiffCoef].

Definition familyName (fam : family) : word :=
  match fam with
  | NSRDS0 => "NSRDS0" | NSRDS1 => "NSRDS1" | NSRDS2 => "NSRDS2"
  | NSRDS3 => "NSRDS3" | NSRDS4 => "NSRDS4" | NSRDS5 => "NSRDS5"
  | NSRDS6 => "NSRDS6" | NSRDS7 => "NSRDS7"
  | APIdiffCoef => "APIdiffCoef"
  end.

(** Modelled from the spec: an object of class
    [thermophysicalFunctions::fam], whose header is not among the
    sources, is its ordered coefficient vector. The class is the index of
    the type, as the member declarations of [IDEA] fix it. *)
Record func (fam : family) : Type := mkFunc { coeffs : list scalar }.
Arguments mkFunc {fam} coeffs.
Arguments coeffs {fam} f.

(** [Foam::thermophysicalFunction]: what a pointer to the base class may
    point to. *)
Inductive thermophysicalFunction : Type :=
| fNone (n : none.t)
| fFamily (fam : family) (cs : list scalar).

(** Upcast of a member to the base class. *)
Definition asFunction {fam : family} (f : func fam) : thermophysicalFunction :=
  fFamily fam (coeffs f).

(** Run-time type name: [none]'s from the source, a family's class name. *)
Definition typeName (f : thermophysicalFunction) : word :=
  match f with
  | fNone _ => none.typeName
  | fFamily fam _ => familyName fam
  end.

(** Modelled from the spec: the families whose formula is in [T/Tc]. The
    description of [IDEA.H] names NSRDS6 as the equation that uses Tcrit. *)
Definition reducedTemperatureForm (fam : family) : bool :=
  match fam with
  | NSRDS6 => true
  | _ => false
  end.

Section Evaluation.

  (** The closed form of each family ([NSRDSnThermophysicalFunctionI.H],
      [APIdiffCoefThermophysicalFunctionI.H]) is not among the sources:
      a pure numeric function of the coefficients and [(p, T)]. *)
  Variable formula : family -> list scalar -> scalar -> scalar -> scalar.

  (** The critical temperature a reduced-temperature function holds among
      its coefficients. *)
  Variable Tcrit : list scalar -> scalar.

(** Modelled from the spec: evaluation of a function of a family. A
    reduced-temperature form fails with [DomainError] when [T >= Tc];
    everywhere else the closed form is evaluated. *)
Definition familyF (fam : family) (cs : list scalar) (p T : scalar)
  : outcome scalar :=
  if reducedTemperatureForm fam && (Tcrit cs <=? T)%float
  then Fatal (DomainError T (Tcrit cs))
  else Returned (formula fam cs p T).

(** [thermophysicalFunction::f(p, T)], dispatched on the dynamic type. *)
Definition F (f : thermophysicalFunction) (p T : scalar) : outcome scalar :=
  match f with
  | fNone n => none.f n p T
  | fFamily fam cs => familyF fam cs p T
  end.

End Evaluation.

(** Modelled from the spec: [thermophysicalFunction::write(Ostream&)] of
    a function of a family writes the type name first, then the
    coefficients in declared order. For a [none] it is [none::write] of
    the source, which writes nothing. *)
Definition writeFunction (fn : thermophysicalFunction) (os : Ostream) : Ostream :=
  match fn with
  | fNone n => none.write n os
  | fFamily fam cs => (os ++ tWord (familyName fam) :: map tScalar cs)%list
  end.

(** ** [Foam::liquidProperties] and [Foam::IDEA] *)

(** Modelled from the spec: the base class ([liquidProperties.H] is not
    among the sources) holds plain scalars; kept are those the
    description of [IDEA.H] speaks of, the molecular weight and the
    critical temperature, pressure and volume. *)
Record liquidProperties : Type := mkLiquidProperties
  { W : scalar;
    Tc : scalar;
    Pc : scalar;
    Vc : scalar }.

Module IDEA.

(** The base-class subobject and the private data, in declaration order. *)
Record t : Type := mk
  { base : liquidProperties;
    rho_ : func NSRDS5;
    pv_ : func NSRDS1;
    hl_ : func NSRDS6;
    Cp_ : func NSRDS0;
    h_ : func NSRDS0;
    Cpg_ : func NSRDS7;
    B_ : func NSRDS4;
    mu_ : func NSRDS1;
    mug_ : func NSRDS2;
    kappa_ : func NSRDS0;
    kappag_ : func NSRDS2;
    sigma_ : func NSRDS6;
    D_ : func APIdiffCoef }.

(** [TypeName("IDEA")] *)
Definition typeName : word := "IDEA".

(** Construct from components. *)
Definition construct
  (l : liquidProperties)
  (density : func NSRDS5)
  (vapourPressure : func NSRDS1)
  (heatOfVapourisation : func NSRDS6)
  (heatCapacity : func NSRDS0)
  (enthalpy : func NSRDS0)
  (idealGasHeatCapacity : func NSRDS7)
  (secondVirialCoeff : func NSRDS4)
  (dynamicViscosity : func NSRDS1)
  (vapourDynamicViscosity : func NSRDS2)
  (thermalConductivity : func NSRDS0)
  (vapourThermalConductivity : func NSRDS2)
  (surfaceTension : func NSRDS6)
  (vapourDiffusivity : func APIdiffCoef) : t :=
  {| base := l;
     rho_ := density;
     pv_ := vapourPressure;
     hl_ := heatOfVapourisation;
     Cp_ := heatCapacity;
     h_ := enthalpy;
     Cpg_ := idealGasHeatCapacity;
     B_ := secondVirialCoeff;
     mu_ := dynamicViscosity;
     mug_ := vapourDynamicViscosity;
     kappa_ := thermalConductivity;
     kappag_ := vapourThermalConductivity;
     sigma_ := surfaceTension;
     D_ := vapourDiffusivity |}.

(** The implicit copy constructor [IDEA(const IDEA&)]: member by member. *)
Definition copy (other : t) : t :=
  {| base := base other;
     rho_ := rho_ other;
     pv_ := pv_ other;
     hl_ := hl_ other;
     Cp_ := Cp_ other;
     h_ := h_ other;
     Cpg_ := Cpg_ other;
     B_ := B_ other;
     mu_ := mu_ other;
     mug_ := mug_ other;
     kappa_ := kappa_ other;
     kappag_ := kappag_ other;
     sigma_ := sigma_ other;
     D_ := D_ other |}.

(** The property slots as base-class functions, keyed by accessor name. *)
Definition functions (self : t) : list (word * thermophysicalFunction) :=
  [ ("rho", asFunction (rho_ self));
    ("pv", asFunction (pv_ self));
    ("hl", asFunction (hl_ self));
    ("Cp", asFunction (Cp_ self));
    ("h", asFunction (h_ self));
    ("Cpg", asFunction (Cpg_ self));
    ("B", asFunction (B_ self));
    ("mu", asFunction (mu_ self));
    ("mug", asFunction (mug_ self));
    ("kappa", asFunction (kappa_ self));
    ("kappag", asFunction (kappag_ self));
    ("sigma", asFunction (sigma_ self));
    ("D", asFunction (D_ self)) ].

Section Accessors.

  Variable formula : family -> list scalar -> scalar -> scalar -> scalar.
  Variable Tcrit : list scalar -> scalar.

  (** [APIdiffCoef::f(p, T, Wb)], the closed form for a binary pair. *)
  Variable formulaWb : list scalar -> scalar -> scalar -> scalar -> scalar.

(** Modelled from the spec: the body of an inline accessor ([IDEAI.H] is
    not among the sources) forwards to the function bound to its slot. *)
Definition eval {fam : family} (fn : func fam) (p T : scalar) : outcome scalar :=
  F formula Tcrit (asFunction fn) p T.

(** Liquid density [kg/m^3] *)
Definition rho (self : t) (p T : scalar) : outcome scalar := eval (rho_ self) p T.

(** Vapour pressure [Pa] *)
Definition pv (self : t) (p T : scalar) : outcome scalar := eval (pv_ self) p T.

(** Heat of vapourisation [J/kg] *)
Definition hl (self : t) (p T : scalar) : outcome scalar := eval (hl_ self) p T.

(** Liquid heat capacity [J/kg/K] *)
Definition Cp (self : t) (p T : scalar) : outcome scalar := eval (Cp_ self) p T.

(** Liquid enthalpy [J/kg] *)
Definition h (self : t) (p T : scalar) : outcome scalar := eval (h_ self) p T.

(** Ideal gas heat capacity [J/kg/K] *)
Definition Cpg (self : t) (p T : scalar) : outcome scalar := eval (Cpg_ self) p T.

(** Second Virial Coefficient [m^3/kg] *)
Definition B (self : t) (p T : scalar) : outcome scalar := eval (B_ self) p T.

(** Liquid viscosity [Pa s] *)
Definition mu (self : t) (p T : scalar) : outcome scalar := eval (mu_ self) p T.

(** Vapour viscosity [Pa s] *)
Definition mug (self : t) (p T : scalar) : outcome scalar := eval (mug_ self) p T.

(** Liquid thermal conductivity [W/m/K] *)
Definition kappa (self : t) (p T : scalar) : outcome scalar := eval (kappa_ self) p T.

(** Vapour thermal conductivity [W/m/K] *)
Definition kappag (self : t) (p T : scalar) : outcome scalar := eval (kappag_ self) p T.

(** Surface tension [N/m] *)
Definition sigma (self : t) (p T : scalar) : outcome scalar := eval (sigma_ self) p T.

(** Vapour diffusivity [m^2/s] *)
Definition D (self : t) (p T : scalar) : outcome scalar := eval (D_ self) p T.

(** Modelled from the spec: vapour diffusivity [m^2/s] with specified
    binary pair, [D(p, T, Wb)], forwards to the closed form for a binary
    pair. *)
Definition D_Wb (self : t) (p T Wb : scalar) : outcome scalar :=
  Returned (formulaWb (coeffs (D_ self)) p T Wb).

(** The thirteen [(p, T)] accessors by name. *)
Definition accessors : list (word * (t -> scalar -> scalar -> outcome scalar)) :=
  [ ("rho", rho); ("pv", pv); ("hl", hl); ("Cp", Cp); ("h", h);
    ("Cpg", Cpg); ("B", B); ("mu", mu); ("mug", mug); ("kappa", kappa);
    ("kappag", kappag); ("sigma", sigma); ("D", D) ].

End Accessors.

End IDEA.

(** ** Objects in memory

    A heap of [IDEA] objects; a pointer is an index into it and [new]
    allocates at the end. *)

Abbreviation pointer := nat (only parsing).
Abbreviation heap := (list IDEA.t) (only parsing).

(** [new IDEA(x)] *)
Definition new (x : IDEA.t) (hp : heap) : pointer * heap :=
  (length hp, (hp ++ [x])%list).

(** [virtual autoPtr<liquidProperties> clone() const
     { return autoPtr<liquidProperties>(new IDEA( *this)); }] *)
Definition clone (this : pointer) (hp : heap) : option (pointer * heap) :=
  match hp !! this with
  | Some self => Some (new (IDEA.copy self) hp)
  | None => None
  end.

(** ** The blend behind IDEA

    From the class description of [IDEA.H]; the numbers the constructor
    passes on live in [IDEA.C], not among the sources. *)

Module blend.

(** "adding 30% alphaMethylNaphthalene with 70% n-decane" *)
Definition Y_naphthalene : scalar := 0.3%float.
Definition Y_decane : scalar := 0.7%float.

(** "The valid Temperature range for n-decane is normally 243.51 - 617.70 K
    and for the naphthalene it is 242.67 - 772.04 K. The least square fit
    was done in the interval 244 - 617 K" *)
Definition Tmin_decane : scalar := 243.51%float.
Definition Tmax_decane : scalar := 617.70%float.
Definition Tmin_naphthalene : scalar := 242.67%float.
Definition Tmax_naphthalene : scalar := 772.04%float.
Definition fitTmin : scalar := 244%float.
Definition fitTmax : scalar := 617%float.

(** "for the IDEA fuel it is thus 142.26" *)
Definition W_IDEA : scalar := 142.26%float.

(** "The critical temperature was taken to be 618.074 K" *)
Definition Tc_IDEA : scalar := 618.074%float.

(** "Critical volume... also the lowest one (naphthalene) 0.523 m^3/kmol" *)
Definition Vc_naphthalene : scalar := 0.523%float.

End blend.

(** ** Construction from a dictionary, and writing back *)

(** The first binding of [key]. *)
Fixpoint lookup {A : Type} (key : word) (l : list (word * A)) : option A :=
  match l with
  | [] => None
  | (k, a) :: rest => if String.eqb k key then Some a else lookup key rest
  end.

(** Modelled from the spec: the table of constructors by type name
    ([CorrelationRegistry]). The families register under their class
    names; [none] registers itself under its type name (source:
    [addToRunTimeSelectionTable(thermophysicalFunction, none, dictionary)]). *)
Definition familyOfName (w : word) : option family :=
  find (fun fam => String.eqb (familyName fam) w) allFamilies.

Section Registry.

  (** The number of coefficients each family expects (its header is not
      among the sources). *)
  Variable arity : family -> nat.

(** Modelled from the spec: [create(typeName, coefficients)]. An unknown
    type name fails with [UnknownCorrelationType], a wrong number of
    coefficients with [MalformedCoefficients]. The constructor of [none]
    (source) reads the name of the dictionary and nothing else. *)
Definition createFunction (dict : dictionary) (e : entry)
  : outcome thermophysicalFunction :=
  if String.eqb (entryType e) none.typeName
  then Returned (fNone (none.construct dict))
  else
    match familyOfName (entryType e) with
    | None => Fatal (UnknownCorrelationType (entryType e))
    | Some fam =>
        if Nat.eqb (length (entryCoeffs e)) (arity fam)
        then Returned (fFamily fam (entryCoeffs e))
        else Fatal (MalformedCoefficients (entryType e) (length (entryCoeffs e)))
    end.

(** Modelled from the spec: the function of one slot. A slot the
    dictionary does not configure is bound to [none]. *)
Definition New (dict : dictionary) (key : word) : outcome thermophysicalFunction :=
  match lookup key (entries dict) with
  | Some e => createFunction dict e
  | None => Returned (fNone (none.construct dict))
  end.

(** Modelled from the spec: the slots are built one after the other; the
    first failure ends the construction. *)
Fixpoint createSlots (dict : dictionary) (keys : list word)
  : outcome (list (word * thermophysicalFunction)) :=
  match keys with
  | [] => Returned []
  | key :: rest =>
      do f <- New dict key ;;
      do fs <- createSlots dict rest ;;
      Returned ((key, f) :: fs)
  end.

End Registry.

Module PropertySet.

(** Modelled from the spec: a substance name and one function per
    property slot. *)
Record t : Type := mk
  { name_ : word;
    functions : list (word * thermophysicalFunction) }.

(** The slots: the accessors [IDEA.H] declares, in order. *)
Definition slotNames : list word :=
  [ "rho"; "pv"; "hl"; "Cp"; "h"; "Cpg"; "B"; "mu"; "mug"; "kappa";
    "kappag"; "sigma"; "D" ].

(** Modelled from the spec: construction from configuration. *)
Definition create (arity : family -> nat) (dict : dictionary) : outcome t :=
  do fs <- createSlots arity dict slotNames ;;
  Returned {| name_ := name dict; functions := fs |}.

(** Modelled from the spec: the accessor of a slot forwards to the
    function bound to it. [None]: no such slot. *)
Definition f (formula : family -> list scalar -> scalar -> scalar -> scalar)
  (Tcrit : list scalar -> scalar)
  (self : t) (key : word) (p T : scalar) : option (outcome scalar) :=
  match lookup key (functions self) with
  | Some fn => Some (F formula Tcrit fn p T)
  | None => None
  end.

(** The numbers among the tokens a function writes. *)
Definition scalarsOf (ts : list token) : list scalar :=
  flat_map (fun tk => match tk with tScalar x => [x] | tWord _ => [] end) ts.

(** The entry that the output of a function makes: the word written
    first is the type name, the numbers after it are the coefficients. A
    function that writes nothing makes no entry. *)
Definition writtenEntry (fn : thermophysicalFunction) : option entry :=
  match writeFunction fn [] with
  | tWord ty :: ts => Some {| entryType := ty; entryCoeffs := scalarsOf ts |}
  | _ => None
  end.

(** Slot by slot, under the key of the slot, the entry its function
    wrote. *)
Definition writtenEntries (fs : list (word * thermophysicalFunction))
  : list (word * entry) :=
  flat_map
    (fun kf => match writtenEntry (snd kf) with
               | Some e => [(fst kf, e)]
               | None => []
               end)
    fs.

(** Modelled from the spec: [write], as the record written. *)
Definition write (self : t) : dictionary :=
  {| name := name_ self;
     entries := writtenEntries (functions self) |}.

End PropertySet.

(** The coefficients a function was declared with. *)
Definition coefficients (fn : thermophysicalFunction) : list scalar :=
  match fn with
  | fNone _ => []
  | fFamily _ cs => cs
  end.

(** The shape the spec gives to what a slot writes: its type name first,
    then its coefficients in declared order. *)
Definition typeNameFirst (fn : thermophysicalFunction) : Prop :=
  writeFunction fn []
  = tWord (typeName fn) :: map tScalar (coefficients fn).

(** What construction guarantees of a function of the property set
    named [nm]: a [none] carries that name, a function of a family has
    the number of coefficients the family expects. *)
Definition wellFormed (arity : family -> nat) (nm : fileName)
  (fn : thermophysicalFunction) : Prop :=
  match fn with
  | fNone n => none.dictName_ n = nm
  | fFamily fam cs => length cs = arity fam
  end.

(** A slot bound as construction binds it: under its key, what [New]
    returned for that key. *)
Definition bound (arity : family -> nat) (dict : dictionary) (key : word)
  (kf : word * thermophysicalFunction) : Prop :=
  fst kf = key /\ New arity dict key = Returned (snd kf).

(** ** Sample objects *)

(** A sample IDEA object: one coefficient vector per slot. *)
Definition sampleIDEA : IDEA.t :=
  IDEA.construct
    {| W := blend.W_IDEA; Tc := blend.Tc_IDEA; Pc := 2.11e6%float;
       Vc := blend.Vc_naphthalene |}
    (mkFunc [152.0%float; 0.387%float; 618.074%float; 0.4%float])
    (mkFunc [1.0%float]) (mkFunc [618.074%float; 2.0%float])
    (mkFunc [3.0%float]) (mkFunc [4.0%float]) (mkFunc [5.0%float])
    (mkFunc [6.0%float]) (mkFunc [7.0%float]) (mkFunc [8.0%float])
    (mkFunc [9.0%float]) (mkFunc [10.0%float]) (mkFunc [618.074%float; 0.05%float])
    (mkFunc [12.0%float]).

(** A sample configuration: a density and a surface tension, every other
    slot left out. *)
Definition sampleArity (fam : family) : nat :=
  match fam with
  | NSRDS5 => 4
  | NSRDS6 => 6
  | _ => 5
  end.

Definition sampleDict : dictionary :=
  {| name := "IDEA";
     entries :=
       [ ("rho", mkEntry "NSRDS5"
                   [152.0%float; 0.387%float; 618.074%float; 0.4%float]);
         ("sigma", mkEntry "NSRDS6"
                     [618.074%float; 0.05%float; 1.2%float; 0%float; 0%float; 0%float]) ] |}.

(** * Theorems *)

(** C1. Evaluating the [none] function fails with [UndefinedFunction]
    at every pressure and temperature; the error carries, among what was
    streamed into it, the name of the dictionary the function was
    constructed from; [f] never returns a value. *)
Theorem none_f_always_fails :
  forall (dict : dictionary) (p T : scalar),
    none.f (none.construct dict) p T
    = Fatal (UndefinedFunction (undefinedFunctionMessage (name dict)))
    /\ undefinedFunctionMessage (name dict)
       = ([sText "Required Function "; sNl; sText "    "]
            ++ sFileName (name dict) :: [sNl; sText "    is not defined."])%list
    /\ (forall v : scalar, none.f (none.construct dict) p T <> Returned v).
Proof.
  intros dict p T. split; [reflexivity | split].
  - unfold undefinedFunctionMessage. reflexivity.
  - intros v H. discriminate H.
Qed.

(** C8. [none::write] emits nothing: whatever the stream holds, it holds
    the same afterwards, so neither a type name nor a coefficient has been
    appended. *)
Theorem none_write_emits_nothing :
  forall (self : none.t) (os : Ostream),
    none.write self os = os
    /\ (forall w : word, In (tWord w) (none.write self os) -> In (tWord w) os)
    /\ (forall x : scalar, In (tScalar x) (none.write self os) -> In (tScalar x) os).
Proof.
  intros self os. unfold none.write. repeat split; intros ? H; exact H.
Qed.

(** ** The model at work *)

Example none_f_sample :
  none.f (none.construct sampleDict) 101325%float 300%float
  = Fatal (UndefinedFunction (undefinedFunctionMessage "IDEA")).
Proof. reflexivity. Qed.

Example create_sample :
  PropertySet.create sampleArity sampleDict
  = Returned
      {| PropertySet.name_ := "IDEA";
         PropertySet.functions :=
           [ ("rho", fFamily NSRDS5
                       [152.0%float; 0.387%float; 618.074%float; 0.4%float]);
             ("pv", fNone (none.mk "IDEA")); ("hl", fNone (none.mk "IDEA"));
             ("Cp", fNone (none.mk "IDEA")); ("h", fNone (none.mk "IDEA"));
             ("Cpg", fNone (none.mk "IDEA")); ("B", fNone (none.mk "IDEA"));
             ("mu", fNone (none.mk "IDEA")); ("mug", fNone (none.mk "IDEA"));
             ("kappa", fNone (none.mk "IDEA"));
             ("kappag", fNone (none.mk "IDEA"));
             ("sigma", fFamily NSRDS6
                         [618.074%float; 0.05%float; 1.2%float; 0%float;
                          0%float; 0%float]);
             ("D", fNone (none.mk "IDEA")) ] |}.
Proof. reflexivity. Qed.

Example create_wrong_arity :
  PropertySet.create sampleArity
    {| name := "IDEA"; entries := [("rho", mkEntry "NSRDS5" [152.0%float])] |}
  = Fatal (MalformedCoefficients "NSRDS5" 1).
Proof. reflexivity. Qed.

Example create_unknown_type :
  PropertySet.create sampleArity
    {| name := "IDEA"; entries := [("mu", mkEntry "Andrade" [1.0%float])] |}
  = Fatal (UnknownCorrelationType "Andrade").
Proof. reflexivity. Qed.

Example write_sample :
  entries
    (PropertySet.write
       {| PropertySet.name_ := "IDEA";
          PropertySet.functions :=
            [ ("rho", fFamily NSRDS5 [152.0%float; 0.387%float]);
              ("mu", fNone (none.mk "IDEA"));
              ("sigma", fFamily NSRDS6 [618.074%float; 0.05%float]) ] |})
  = [ ("rho", mkEntry "NSRDS5" [152.0%float; 0.387%float]);
      ("sigma", mkEntry "NSRDS6" [618.074%float; 0.05%float]) ].
Proof. reflexivity. Qed.

(** ** The interval of the fit *)

(** The interval of the least square fit lies in the range where both
    sources are valid. *)
Lemma fit_interval_in_overlap :
  (blend.Tmin_decane <=? blend.fitTmin)%float = true
  /\ (blend.Tmin_naphthalene <=? blend.fitTmin)%float = true
  /\ (blend.fitTmax <=? blend.Tmax_decane)%float = true
  /\ (blend.fitTmax <=? blend.Tmax_naphthalene)%float = true
  /\ (blend.Y_naphthalene + blend.Y_decane =? 1)%float = true.
Proof. repeat split; reflexivity. Qed.

(** ** The slots of IDEA *)

(** Each accessor evaluates the function listed under its name. *)
Lemma IDEA_accessors_forward formula Tcrit (l : IDEA.t) :
  Forall2
    (fun (na : word * (IDEA.t -> scalar -> scalar -> outcome scalar))
         (kf : word * thermophysicalFunction) =>
       fst na = fst kf
       /\ forall p T : scalar, snd na l p T = F formula Tcrit (snd kf) p T)
    (IDEA.accessors formula Tcrit) (IDEA.functions l).
Proof.
  unfold IDEA.accessors, IDEA.functions.
  repeat (constructor; [split; [reflexivity | intros p T; reflexivity] |]).
  constructor.
Qed.

(** C9. Whatever an IDEA object was constructed from, its slots are bound
    to the same families: density NSRDS5, vapour pressure and liquid
    viscosity NSRDS1, heat of vapourisation and surface tension NSRDS6,
    heat capacity, enthalpy and thermal conductivity NSRDS0, ideal-gas
    heat capacity NSRDS7, second virial coefficient NSRDS4, vapour
    viscosity and vapour thermal conductivity NSRDS2, vapour diffusivity
    APIdiffCoef; two objects differ in the coefficients at most. *)
Theorem IDEA_slot_families :
  forall l : IDEA.t,
    map (fun kf => (fst kf, typeName (snd kf))) (IDEA.functions l)
    = [ ("rho", "NSRDS5"); ("pv", "NSRDS1"); ("hl", "NSRDS6");
        ("Cp", "NSRDS0"); ("h", "NSRDS0"); ("Cpg", "NSRDS7");
        ("B", "NSRDS4"); ("mu", "NSRDS1"); ("mug", "NSRDS2");
        ("kappa", "NSRDS0"); ("kappag", "NSRDS2"); ("sigma", "NSRDS6");
        ("D", "APIdiffCoef") ]
    /\ (forall l' : IDEA.t,
          Forall2
            (fun kf kf' =>
               fst kf = fst kf'
               /\ exists (fam : family) (cs cs' : list scalar),
                    snd kf = fFamily fam cs /\ snd kf' = fFamily fam cs')
            (IDEA.functions l) (IDEA.functions l')).
Proof.
  intros l. split.
  - reflexivity.
  - intros l'. unfold IDEA.functions, asFunction.
    repeat (constructor;
            [split; [reflexivity | simpl; eexists _, _, _; split; reflexivity] |]).
    constructor.
Qed.

(** ** Copies *)

Lemma copy_eq (self : IDEA.t) : IDEA.copy self = self.
Proof. destruct self. reflexivity. Qed.

Lemma new_fresh (x : IDEA.t) (hp : heap) :
  hp !! fst (new x hp) = None
  /\ snd (new x hp) !! fst (new x hp) = Some x
  /\ forall q : pointer, q <> fst (new x hp) -> snd (new x hp) !! q = hp !! q.
Proof.
  unfold new. cbn [fst snd]. repeat split.
  - apply lookup_ge_None. lia.
  - rewrite lookup_app_r by lia. rewrite Nat.sub_diag. reflexivity.
  - intros q Hq. destruct (Nat.lt_ge_cases q (length hp)) as [Hlt | Hge].
    + apply lookup_app_l. exact Hlt.
    + rewrite (proj2 (lookup_ge_None hp q)) by lia.
      apply lookup_ge_None. rewrite length_app. simpl. lia.
Qed.

(** C10. [clone] of an IDEA object returns a pointer to a new object,
    distinct from the original and not allocated before, whose base-class
    constants are those of the original and whose every accessor returns
    what the original's returns at every [(p, T)]; the original and every
    other object are as they were, and overwriting either of the two
    afterwards leaves the other untouched. *)
Theorem clone_is_independent_copy :
  forall (formula : family -> list scalar -> scalar -> scalar -> scalar)
         (formulaWb : list scalar -> scalar -> scalar -> scalar -> scalar)
         (Tcrit : list scalar -> scalar)
         (this : pointer) (hp : heap) (self : IDEA.t),
    hp !! this = Some self ->
    exists (c : pointer) (hp' : heap) (cloned : IDEA.t),
      clone this hp = Some (c, hp')
      /\ c <> this
      /\ hp !! c = None
      /\ hp' !! c = Some cloned
      /\ hp' !! this = Some self
      /\ (forall q : pointer, q <> c -> hp' !! q = hp !! q)
      /\ IDEA.base cloned = IDEA.base self
      /\ Forall
           (fun na : word * (IDEA.t -> scalar -> scalar -> outcome scalar) =>
              forall p T : scalar, snd na cloned p T = snd na self p T)
           (IDEA.accessors formula Tcrit)
      /\ (forall p T Wb : scalar,
            IDEA.D_Wb formulaWb cloned p T Wb = IDEA.D_Wb formulaWb self p T Wb)
      /\ (forall x : IDEA.t, <[c := x]> hp' !! this = Some self)
      /\ (forall x : IDEA.t, <[this := x]> hp' !! c = Some cloned).
Proof.
  intros formula formulaWb Tcrit this hp self Hthis.
  destruct (new_fresh (IDEA.copy self) hp) as (Hfresh & Hnew & Hother).
  assert (Hne : fst (new (IDEA.copy self) hp) <> this).
  { intros E. rewrite E in Hfresh. congruence. }
  exists (fst (new (IDEA.copy self) hp)), (snd (new (IDEA.copy self) hp)),
    (IDEA.copy self).
  split; [unfold clone; rewrite Hthis; reflexivity |].
  split; [exact Hne |].
  split; [exact Hfresh |].
  split; [exact Hnew |].
  assert (Hkept : snd (new (IDEA.copy self) hp) !! this = Some self).
  { rewrite Hother by (intros E; apply Hne; symmetry; exact E). exact Hthis. }
  split; [exact Hkept |].
  split; [exact Hother |].
  rewrite copy_eq in *.
  split; [reflexivity |].
  split; [apply Forall_forall; intros na _ p T; reflexivity |].
  split; [intros p T Wb; reflexivity |].
  split.
  - intros x. rewrite list_lookup_insert_ne by exact Hne. exact Hkept.
  - intros x. rewrite list_lookup_insert_ne
      by (intros E; apply Hne; symmetry; exact E).
    exact Hnew.
Qed.

Lemma clone_is_independent_copy_witness :
  exists (c : pointer) (hp' : heap) (cloned : IDEA.t),
    clone 0 [sampleIDEA] = Some (c, hp')
    /\ c <> 0
    /\ [sampleIDEA] !! c = None
    /\ hp' !! c = Some cloned
    /\ hp' !! 0 = Some sampleIDEA
    /\ (forall q : pointer, q <> c -> hp' !! q = [sampleIDEA] !! q)
    /\ IDEA.base cloned = IDEA.base sampleIDEA
    /\ Forall
         (fun na : word * (IDEA.t -> scalar -> scalar -> outcome scalar) =>
            forall p T : scalar, snd na cloned p T = snd na sampleIDEA p T)
         (IDEA.accessors (fun _ cs _ T => (hd 0%float cs * T)%float)
                         (fun cs => hd 0%float cs))
    /\ (forall p T Wb : scalar,
          IDEA.D_Wb (fun cs _ T Wb => (hd 0%float cs * T / Wb)%float) cloned p T Wb
          = IDEA.D_Wb (fun cs _ T Wb => (hd 0%float cs * T / Wb)%float) sampleIDEA p T Wb)
    /\ (forall x : IDEA.t, <[c := x]> hp' !! 0 = Some sampleIDEA)
    /\ (forall x : IDEA.t, <[0 := x]> hp' !! c = Some cloned).
Proof.
  apply (clone_is_independent_copy
           (fun _ cs _ T => (hd 0%float cs * T)%float)
           (fun cs _ T Wb => (hd 0%float cs * T / Wb)%float)
           (fun cs => hd 0%float cs) 0 [sampleIDEA] sampleIDEA).
  reflexivity.
Defined.

(** ** Construction from a dictionary *)

Section Construction.

  Variable arity : family -> nat.

Lemma lookup_In {A : Type} (key : word) (l : list (word * A)) (a : A) :
  lookup key l = Some a -> In (key, a) l.
Proof.
  induction l as [| [k x] rest IH]; simpl; [discriminate |].
  destruct (String.eqb k key) eqn:E.
  - intros H. injection H as ->. apply String.eqb_eq in E. subst k.
    left. reflexivity.
  - intros H. right. apply IH. exact H.
Qed.

Lemma lookup_NoDup {A : Type} (key : word) (l : list (word * A)) (a : A) :
  List.NoDup (map fst l) -> In (key, a) l -> lookup key l = Some a.
Proof.
  induction l as [| [k x] rest IH]; simpl; [intros _ [] |].
  intros Hnd [Hin | Hin].
  - injection Hin as -> ->. rewrite String.eqb_refl. reflexivity.
  - apply List.NoDup_cons_iff in Hnd as [Hk Hrest].
    destruct (String.eqb k key) eqn:E.
    + apply String.eqb_eq in E. subst k. exfalso. apply Hk.
      apply (in_map fst) in Hin. exact Hin.
    + apply IH; assumption.
Qed.

Lemma createSlots_Returned (dict : dictionary) (keys : list word)
  (fs : list (word * thermophysicalFunction)) :
  createSlots arity dict keys = Returned fs <-> Forall2 (bound arity dict) keys fs.
Proof.
  revert fs. induction keys as [| key rest IH]; intros fs; simpl.
  - split.
    + intros H. injection H as <-. constructor.
    + intros H. inversion H. reflexivity.
  - destruct (New arity dict key) as [fn | e] eqn:EN; simpl.
    + destruct (createSlots arity dict rest) as [fs' | e] eqn:ES; simpl.
      * split.
        -- intros H. injection H as <-. constructor.
           ++ split; [reflexivity | exact EN].
           ++ apply IH. reflexivity.
        -- intros H. inversion H as [| k kf ks fs'' [Hk Hn] Hrest]; subst.
           apply IH in Hrest. injection Hrest as <-.
           destruct kf as [k fn']. simpl in *.
           rewrite EN in Hn. injection Hn as <-. reflexivity.
      * split; [discriminate |].
        intros H. inversion H as [| k kf ks fs'' _ Hrest]; subst.
        apply IH in Hrest. discriminate Hrest.
    + split; [discriminate |].
      intros H. inversion H as [| k kf ks fs'' [_ Hn] _]; subst.
      rewrite EN in Hn. discriminate Hn.
Qed.

Lemma createSlots_total (dict : dictionary) (keys : list word) :
  (forall key : word, In key keys -> isFatal (New arity dict key) = false) ->
  exists fs, createSlots arity dict keys = Returned fs.
Proof.
  induction keys as [| key rest IH]; intros Hok; simpl.
  - exists []. reflexivity.
  - pose proof (Hok key (or_introl eq_refl)) as Hkey.
    destruct (New arity dict key) as [fn | e]; [| discriminate Hkey].
    destruct IH as [fs Hfs].
    + intros k Hk. apply Hok. right. exact Hk.
    + exists ((key, fn) :: fs). simpl. rewrite Hfs. reflexivity.
Qed.

Lemma Forall2_bound_lookup (dict : dictionary) (keys : list word)
  (fs : list (word * thermophysicalFunction)) :
  Forall2 (bound arity dict) keys fs ->
  map fst fs = keys
  /\ forall key : word, In key keys ->
       exists fn, In (key, fn) fs /\ New arity dict key = Returned fn.
Proof.
  induction 1 as [| key [k fn] keys fs [Hk Hn] _ [IHm IHl]]; simpl in *.
  - split; [reflexivity | intros key []].
  - subst k. split; [rewrite IHm; reflexivity |].
    intros key' [<- | Hin].
    + exists fn. split; [left; reflexivity | exact Hn].
    + destruct (IHl key' Hin) as (fn' & Hin' & Hn').
      exists fn'. split; [right; exact Hin' | exact Hn'].
Qed.

Lemma slotNames_NoDup : List.NoDup PropertySet.slotNames.
Proof.
  unfold PropertySet.slotNames.
  repeat (apply List.NoDup_cons; [simpl; intuition discriminate |]).
  apply List.NoDup_nil.
Qed.

(** What [create] returns: under each slot name, what [New] returned. *)
Lemma create_Returned (dict : dictionary) (ps : PropertySet.t) :
  PropertySet.create arity dict = Returned ps ->
  PropertySet.name_ ps = name dict
  /\ Forall2 (bound arity dict) PropertySet.slotNames (PropertySet.functions ps)
  /\ forall key : word, In key PropertySet.slotNames ->
       exists fn, lookup key (PropertySet.functions ps) = Some fn
                  /\ New arity dict key = Returned fn.
Proof.
  unfold PropertySet.create.
  destruct (createSlots arity dict PropertySet.slotNames) as [fs | e] eqn:E;
    simpl; [| discriminate].
  intros H. injection H as <-. simpl.
  apply createSlots_Returned in E.
  destruct (Forall2_bound_lookup _ _ _ E) as [Hm Hl].
  split; [reflexivity | split; [exact E |]].
  intros key Hin. destruct (Hl key Hin) as (fn & Hfn & Hn).
  exists fn. split; [| exact Hn].
  apply lookup_NoDup; [| exact Hfn].
  rewrite Hm. apply slotNames_NoDup.
Qed.

End Construction.

(** C6. Construction of a property set does not fail because slots are
    left unconfigured: if every slot the dictionary does configure can be
    created, construction returns a property set; each slot the
    dictionary leaves out is bound to a [none], which holds the name of
    the dictionary and nothing else, and only evaluating that slot fails,
    with [UndefinedFunction]; each configured slot is bound to the
    function created for it and evaluates as that function. *)
Theorem construction_tolerates_unconfigured_slots :
  forall (arity : family -> nat)
         (formula : family -> list scalar -> scalar -> scalar -> scalar)
         (Tcrit : list scalar -> scalar)
         (dict : dictionary),
    (forall (key : word) (e : entry),
        In key PropertySet.slotNames ->
        lookup key (entries dict) = Some e ->
        isFatal (createFunction arity dict e) = false) ->
    exists ps : PropertySet.t,
      PropertySet.create arity dict = Returned ps
      /\ PropertySet.name_ ps = name dict
      /\ forall key : word,
           In key PropertySet.slotNames ->
           match lookup key (entries dict) with
           | None =>
               lookup key (PropertySet.functions ps)
               = Some (fNone {| none.dictName_ := name dict |})
               /\ forall p T : scalar,
                    PropertySet.f formula Tcrit ps key p T
                    = Some (Fatal (UndefinedFunction (undefinedFunctionMessage (name dict))))
           | Some e =>
               exists fn : thermophysicalFunction,
                 createFunction arity dict e = Returned fn
                 /\ lookup key (PropertySet.functions ps) = Some fn
                 /\ forall p T : scalar,
                      PropertySet.f formula Tcrit ps key p T
                      = Some (F formula Tcrit fn p T)
           end.
Proof.
  intros arity formula Tcrit dict Hconf.
  destruct (createSlots_total arity dict PropertySet.slotNames) as [fs Hfs].
  { intros key Hin. unfold New.
    destruct (lookup key (entries dict)) as [e |] eqn:E.
    - apply (Hconf key e Hin E).
    - reflexivity. }
  exists {| PropertySet.name_ := name dict; PropertySet.functions := fs |}.
  assert (Hcreate : PropertySet.create arity dict
                    = Returned {| PropertySet.name_ := name dict;
                                  PropertySet.functions := fs |}).
  { unfold PropertySet.create. rewrite Hfs. reflexivity. }
  split; [exact Hcreate | split; [reflexivity |]].
  intros key Hin.
  destruct (create_Returned arity dict _ Hcreate) as (_ & _ & Hl).
  destruct (Hl key Hin) as (fn & Hfn & Hn).
  unfold New in Hn. unfold PropertySet.f.
  destruct (lookup key (entries dict)) as [e |].
  - exists fn. rewrite Hfn. split; [exact Hn | split; reflexivity].
  - injection Hn as <-. rewrite Hfn. split; reflexivity.
Qed.

Lemma construction_tolerates_unconfigured_slots_witness :
  exists ps : PropertySet.t,
    PropertySet.create sampleArity sampleDict = Returned ps
    /\ PropertySet.name_ ps = name sampleDict
    /\ forall key : word,
         In key PropertySet.slotNames ->
         match lookup key (entries sampleDict) with
         | None =>
             lookup key (PropertySet.functions ps)
             = Some (fNone {| none.dictName_ := name sampleDict |})
             /\ forall p T : scalar,
                  PropertySet.f (fun _ cs _ T => (hd 0%float cs * T)%float)
                                (fun cs => hd 0%float cs) ps key p T
                  = Some (Fatal (UndefinedFunction (undefinedFunctionMessage (name sampleDict))))
         | Some e =>
             exists fn : thermophysicalFunction,
               createFunction sampleArity sampleDict e = Returned fn
               /\ lookup key (PropertySet.functions ps) = Some fn
               /\ forall p T : scalar,
                    PropertySet.f (fun _ cs _ T => (hd 0%float cs * T)%float)
                                  (fun cs => hd 0%float cs) ps key p T
                    = Some (F (fun _ cs _ T => (hd 0%float cs * T)%float)
                              (fun cs => hd 0%float cs) fn p T)
         end.
Proof.
  apply (construction_tolerates_unconfigured_slots
           sampleArity (fun _ cs _ T => (hd 0%float cs * T)%float)
           (fun cs => hd 0%float cs) sampleDict).
  intros key e _. unfold sampleDict. cbn [entries lookup].
  destruct (String.eqb "rho" key).
  - intros H. injection H as <-. reflexivity.
  - destruct (String.eqb "sigma" key).
    + intros H. injection H as <-. reflexivity.
    + intros H. discriminate H.
Defined.

(** ** Writing back *)

Lemma scalarsOf_tScalar (cs : list scalar) :
  PropertySet.scalarsOf (map tScalar cs) = cs.
Proof.
  induction cs as [| c cs IH]; simpl; [reflexivity |].
  f_equal. exact IH.
Qed.

(** A function of a family writes its type name first, then its
    coefficients in order: the entry is the one it was declared with. *)
Lemma writtenEntry_family (fam : family) (cs : list scalar) :
  typeNameFirst (fFamily fam cs)
  /\ PropertySet.writtenEntry (fFamily fam cs)
     = Some {| entryType := familyName fam; entryCoeffs := cs |}.
Proof.
  split; [reflexivity |].
  unfold PropertySet.writtenEntry. simpl. rewrite scalarsOf_tScalar.
  reflexivity.
Qed.

(** A [none] writes nothing, so it makes no entry. *)
Lemma writtenEntry_none (n : none.t) :
  (forall os : Ostream, writeFunction (fNone n) os = os)
  /\ PropertySet.writtenEntry (fNone n) = None.
Proof. split; reflexivity. Qed.

Lemma lookup_None {A : Type} (key : word) (l : list (word * A)) :
  ~ In key (map fst l) -> lookup key l = None.
Proof.
  induction l as [| [k x] rest IH]; simpl; [reflexivity |].
  intros Hn. destruct (String.eqb k key) eqn:E.
  - apply String.eqb_eq in E. exfalso. apply Hn. left. exact E.
  - apply IH. intros H. apply Hn. right. exact H.
Qed.

Lemma writtenEntries_keys (fs : list (word * thermophysicalFunction))
  (key : word) :
  In key (map fst (PropertySet.writtenEntries fs)) -> In key (map fst fs).
Proof.
  induction fs as [| [k fn] rest IH]; simpl; [intros [] |].
  destruct (PropertySet.writtenEntry fn); simpl.
  - intros [H | H]; [left; exact H | right; apply IH; exact H].
  - intros H. right. apply IH. exact H.
Qed.

(** Under the key of a slot the record holds what its function wrote. *)
Lemma written_lookup (fs : list (word * thermophysicalFunction)) (key : word)
  (fn : thermophysicalFunction) :
  List.NoDup (map fst fs) ->
  lookup key fs = Some fn ->
  lookup key (PropertySet.writtenEntries fs) = PropertySet.writtenEntry fn.
Proof.
  induction fs as [| [k x] rest IH]; simpl; [discriminate |].
  intros Hnd. apply List.NoDup_cons_iff in Hnd as [Hk Hrest].
  destruct (String.eqb k key) eqn:E.
  - intros H. injection H as ->. apply String.eqb_eq in E. subst k.
    destruct (PropertySet.writtenEntry fn) as [e |]; simpl.
    + rewrite String.eqb_refl. reflexivity.
    + apply lookup_None. intros H. apply Hk.
      apply writtenEntries_keys. exact H.
  - intros H. destruct (PropertySet.writtenEntry x) as [e |]; simpl.
    + rewrite E. apply IH; assumption.
    + apply IH; assumption.
Qed.

Lemma familyName_registered (fam : family) :
  String.eqb (familyName fam) none.typeName = false
  /\ familyOfName (familyName fam) = Some fam.
Proof. destruct fam; split; reflexivity. Qed.

Lemma familyOfName_familyName (w : word) (fam : family) :
  familyOfName w = Some fam -> familyName fam = w.
Proof.
  unfold familyOfName. intros H. apply find_some in H as [_ H].
  apply String.eqb_eq. exact H.
Qed.

Section RoundTrip.

  Variable arity : family -> nat.

Lemma createFunction_wellFormed (dict : dictionary) (e : entry)
  (fn : thermophysicalFunction) :
  createFunction arity dict e = Returned fn -> wellFormed arity (name dict) fn.
Proof.
  unfold createFunction.
  destruct (String.eqb (entryType e) none.typeName).
  - intros H. injection H as <-. reflexivity.
  - destruct (familyOfName (entryType e)) as [fam |]; [| discriminate].
    destruct (Nat.eqb (length (entryCoeffs e)) (arity fam)) eqn:E; [| discriminate].
    intros H. injection H as <-. simpl. apply Nat.eqb_eq. exact E.
Qed.

Lemma New_wellFormed (dict : dictionary) (key : word)
  (fn : thermophysicalFunction) :
  New arity dict key = Returned fn -> wellFormed arity (name dict) fn.
Proof.
  unfold New. destruct (lookup key (entries dict)) as [e |].
  - apply createFunction_wellFormed.
  - intros H. injection H as <-. reflexivity.
Qed.

(** A function of a family is created from exactly the entry it writes. *)
Lemma createFunction_family (dict : dictionary) (e : entry) (fam : family)
  (cs : list scalar) :
  createFunction arity dict e = Returned (fFamily fam cs) ->
  e = {| entryType := familyName fam; entryCoeffs := cs |}.
Proof.
  unfold createFunction.
  destruct (String.eqb (entryType e) none.typeName); [discriminate |].
  destruct (familyOfName (entryType e)) as [fam' |] eqn:Ef; [| discriminate].
  destruct (Nat.eqb (length (entryCoeffs e)) (arity fam')); [| discriminate].
  intros H. injection H as -> <-.
  apply familyOfName_familyName in Ef. destruct e as [ty cs']. simpl in *.
  subst ty. reflexivity.
Qed.

(** Only a slot configured with the type name of [none], or not at all,
    is bound to a [none]. *)
Lemma createFunction_none (dict : dictionary) (e : entry) (n : none.t) :
  createFunction arity dict e = Returned (fNone n) ->
  entryType e = none.typeName.
Proof.
  unfold createFunction.
  destruct (String.eqb (entryType e) none.typeName) eqn:E.
  - intros _. apply String.eqb_eq. exact E.
  - destruct (familyOfName (entryType e)) as [fam |]; [| discriminate].
    destruct (Nat.eqb (length (entryCoeffs e)) (arity fam)); discriminate.
Qed.

(** Creating the slot again from what its function wrote, or from
    nothing when it wrote nothing, gives the function back. *)
Lemma New_written (written : dictionary) (key : word)
  (fn : thermophysicalFunction) :
  wellFormed arity (name written) fn ->
  lookup key (entries written) = PropertySet.writtenEntry fn ->
  New arity written key = Returned fn.
Proof.
  intros Hwf Hlook. unfold New. rewrite Hlook.
  destruct fn as [[nm] | fam cs].
  - rewrite (proj2 (writtenEntry_none _)). simpl in Hwf. subst nm. reflexivity.
  - rewrite (proj2 (writtenEntry_family fam cs)). unfold createFunction.
    cbn [entryType entryCoeffs]. simpl in Hwf.
    destruct (familyName_registered fam) as [Hnone Hreg].
    rewrite Hnone, Hreg, Hwf, Nat.eqb_refl. reflexivity.
Qed.

(** Slot by slot, [New] on the record written returns the function that
    was bound to the slot. *)
Lemma bound_record (dict written : dictionary)
  (all : list (word * thermophysicalFunction)) (keys : list word)
  (fs : list (word * thermophysicalFunction)) :
  name written = name dict ->
  entries written = PropertySet.writtenEntries all ->
  List.NoDup (map fst all) ->
  (forall key : word, In key keys ->
     exists fn, lookup key all = Some fn /\ New arity dict key = Returned fn) ->
  Forall2 (bound arity dict) keys fs ->
  Forall2 (bound arity written) keys fs.
Proof.
  intros Hname Hentries Hnd Hall Hbound.
  induction Hbound as [| key [k fn] keys' fs' [Hk Hn] _ IH].
  - constructor.
  - cbn [fst snd] in Hk, Hn. subst k. constructor.
    + split; [reflexivity |]. cbn [snd].
      destruct (Hall key (or_introl eq_refl)) as (fn' & Hfn' & Hn').
      rewrite Hn in Hn'. injection Hn' as <-.
      apply New_written.
      * rewrite Hname. apply (New_wellFormed dict key fn Hn).
      * rewrite Hentries. apply written_lookup; assumption.
    + apply IH. intros key' H'. apply Hall. right. exact H'.
Qed.

Lemma create_keys (dict : dictionary) (ps : PropertySet.t) :
  PropertySet.create arity dict = Returned ps ->
  map fst (PropertySet.functions ps) = PropertySet.slotNames.
Proof.
  intros Hcreate.
  destruct (create_Returned arity dict ps Hcreate) as (_ & Hbound & _).
  apply (Forall2_bound_lookup arity dict _ _ Hbound).
Qed.

Lemma create_write (dict : dictionary) (ps : PropertySet.t) :
  PropertySet.create arity dict = Returned ps ->
  PropertySet.create arity (PropertySet.write ps) = Returned ps.
Proof.
  intros Hcreate.
  destruct (create_Returned arity dict ps Hcreate) as (Hname & Hbound & Hl).
  assert (Hslots : createSlots arity (PropertySet.write ps)
                     PropertySet.slotNames
                   = Returned (PropertySet.functions ps)).
  { apply createSlots_Returned.
    apply (bound_record dict (PropertySet.write ps) (PropertySet.functions ps)).
    - exact Hname.
    - reflexivity.
    - rewrite (create_keys dict ps Hcreate). apply slotNames_NoDup.
    - exact Hl.
    - exact Hbound. }
  unfold PropertySet.create. rewrite Hslots. cbn [bind].
  destruct ps as [nm fs]. reflexivity.
Qed.

End RoundTrip.




(** ** Clones of clones *)

(** X2. A clone can be cloned in turn: from an IDEA object two calls of
    [clone], the second on the result of the first, give two new objects
    at pointers distinct from each other and from the original; both are
    equal to the original, member by member, the original is still in
    place, and the heap holds exactly two objects more. *)
Theorem clone_of_clone :
  forall (this : pointer) (hp : heap) (self : IDEA.t),
    hp !! this = Some self ->
    exists (c1 c2 : pointer) (hp1 hp2 : heap),
      clone this hp = Some (c1, hp1)
      /\ clone c1 hp1 = Some (c2, hp2)
      /\ c1 <> this /\ c2 <> this /\ c2 <> c1
      /\ hp2 !! this = Some self
      /\ hp2 !! c1 = Some self
      /\ hp2 !! c2 = Some self
      /\ length hp2 = length hp + 2
      /\ forall q : pointer, q < length hp -> hp2 !! q = hp !! q.
Proof.
  intros this hp self Hthis.
  pose proof (lookup_lt_Some _ _ _ Hthis) as Hlt.
  exists (length hp), (S (length hp)), (hp ++ [self])%list,
    ((hp ++ [self]) ++ [self])%list.
  assert (H1 : (hp ++ [self])%list !! length hp = Some self).
  { rewrite lookup_app_r by lia. rewrite Nat.sub_diag. reflexivity. }
  split.
  { unfold clone, new. rewrite Hthis, copy_eq. reflexivity. }
  split.
  { unfold clone, new. rewrite H1, copy_eq, length_app. simpl.
    rewrite Nat.add_1_r. reflexivity. }
  split; [lia |]. split; [lia |]. split; [lia |].
  split.
  { rewrite lookup_app_l by (rewrite length_app; simpl; lia).
    rewrite lookup_app_l by lia. exact Hthis. }
  split.
  { rewrite lookup_app_l by (rewrite length_app; simpl; lia). exact H1. }
  split.
  { rewrite lookup_app_r by (rewrite length_app; simpl; lia).
    rewrite length_app. simpl.
    replace (S (length hp) - (length hp + 1)) with 0 by lia. reflexivity. }
  split.
  { rewrite !length_app. simpl. lia. }
  intros q Hq.
  rewrite lookup_app_l by (rewrite length_app; simpl; lia).
  apply lookup_app_l. exact Hq.
Qed.

Lemma clone_of_clone_witness :
  exists (c1 c2 : pointer) (hp1 hp2 : heap),
    clone 0 [sampleIDEA] = Some (c1, hp1)
    /\ clone c1 hp1 = Some (c2, hp2)
    /\ c1 <> 0 /\ c2 <> 0 /\ c2 <> c1
    /\ hp2 !! 0 = Some sampleIDEA
    /\ hp2 !! c1 = Some sampleIDEA
    /\ hp2 !! c2 = Some sampleIDEA
    /\ length hp2 = length [sampleIDEA] + 2
    /\ forall q : pointer, q < length [sampleIDEA] -> hp2 !! q = [sampleIDEA] !! q.
Proof.
  apply (clone_of_clone 0 [sampleIDEA] sampleIDEA). reflexivity.
Defined.
